(** * blpapi: the consumer session (src/blpapi/session.py)

    A shallow embedding of [session.py].  The module is a wrapper: every
    operation hands its arguments to the [internals] layer and turns the
    returned code into a Python result.  What [session.py] imports and does
    not define is collected in the [External] interface below; what it does
    itself (argument checks, mode selection, error-list collection, the exit
    hook, the event dispatcher) is written out as state-passing functions over
    a [World]. *)

From Stdlib Require Import ZArith String List.
From stdpp Require Import base option list gmap sets strings.

Local Open Scope string_scope.
Local Open Scope Z_scope.

(** ** Python values *)

(** [class SubscriptionPreprocessMode(Enum)], session.py:32-46. *)
Inductive SubscriptionPreprocessMode :=
  | FAIL_ON_FIRST_ERROR
  | RETURN_INDIVIDUAL_ERRORS.

Definition SubscriptionPreprocessMode_value (m : SubscriptionPreprocessMode) : Z :=
  match m with
  | FAIL_ON_FIRST_ERROR => 1
  | RETURN_INDIVIDUAL_ERRORS => 2
  end.

Definition SubscriptionPreprocessMode_eqb (a b : SubscriptionPreprocessMode) : bool :=
  SubscriptionPreprocessMode_value a =? SubscriptionPreprocessMode_value b.

(** Classes of the objects that reach the session only as opaque arguments. *)
Inductive PyClass :=
  | ClsSessionOptions
  | ClsEventDispatcher
  | ClsIdentity
  | ClsSubscriptionList
  | ClsRequest
  | ClsRequestTemplate
  | ClsEventQueue
  | ClsService.

(** The values an argument of a session method can hold.  Objects are held by
    reference: the [nat] is the identity of the object. *)
Inductive PyObj :=
  | PyNone
  | PyBool (b : bool)
  | PyInt (z : Z)
  | PyStr (s : string)
  | PyMode (m : SubscriptionPreprocessMode)
  | PyCorrelationId (c : nat)
  | PyInstance (cls : PyClass) (a : nat).

(** [x is None] *)
Definition is_None (x : PyObj) : bool :=
  match x with PyNone => true | _ => false end.

(** [isinstance(x, CorrelationId)] *)
Definition isinstance_CorrelationId (x : PyObj) : bool :=
  match x with PyCorrelationId _ => true | _ => false end.

(** ** Exceptions and results *)

Inductive Exception :=
  | InvalidArgumentException (description : string) (errorCode : Z)
  | InvalidStateException (description : string) (errorCode : Z)
  | DuplicateCorrelationIdException (description : string) (errorCode : Z)
  | UnknownErrorException (description : string) (errorCode : Z)
  | ValueError (value : PyObj)
  | AttributeError (name : string)
  | OtherException (what : string).

(** How a call ends: it returns, it raises, or the process is gone
    ([os._exit]). *)
Inductive result (A : Type) :=
  | Return (a : A)
  | Raise (e : Exception)
  | Exit (status : Z).
Arguments Return {A} a.
Arguments Raise {A} e.
Arguments Exit {A} status.

(** Calling the enum class on a value, [SubscriptionPreprocessMode(mode)]:
    a member is returned as it is, a value is looked up among the members'
    values ([True == 1] in Python), anything else is a [ValueError].  The
    lookup goes by hash and equality, so Python finds a member for [1.0] and
    [2.0] as well; [PyObj] has no such values, and nothing below says which
    values are refused beyond those of [PyObj]. *)
Definition SubscriptionPreprocessMode_call (mode : PyObj)
  : result SubscriptionPreprocessMode :=
  match mode with
  | PyMode m => Return m
  | PyInt 1 | PyBool true => Return FAIL_ON_FIRST_ERROR
  | PyInt 2 => Return RETURN_INDIVIDUAL_ERRORS
  | _ => Raise (ValueError mode)
  end.

(** ** Objects of the module *)

(** A [Session] object after [__init__]: its identity and its private
    attributes.  [__handlerProxy] is [functools.partial(__dispatchEvent,
    ref(self))]: the dispatcher bound to a weak reference, kept here as the
    identity the weak reference points to. *)
Record Session := mkSession {
  self_id : nat;
  __handle : Z;
  __handler : option nat;
  __handlerProxy : option nat
}.

(** [Event(handle, sessions)] *)
Record Event := mkEvent {
  event_handle : Z;
  event_sessions : gset nat
}.

(** [RequestTemplate(handle)] *)
Record RequestTemplate := mkRequestTemplate {
  template_handle : Z
}.

(** [class SubscriptionPreprocessError], session.py:770-804. *)
Module SubscriptionPreprocessError.

Inductive ErrorCode :=
  | SUBSCRIPTIONPREPROCESS_INVALID_SUBSCRIPTION_STRING
  | SUBSCRIPTIONPREPROCESS_CORRELATIONID_ERROR.

Record t := mk {
  correlationId : PyObj;
  subscriptionString : string;
  errorCode : ErrorCode;
  description : string
}.

End SubscriptionPreprocessError.

(** One invocation of the error callback by a [...Ex_helper]: the four
    positional arguments of [errorAppender]. *)
Record AppenderCall := mkAppenderCall {
  call_correlationId : PyObj;
  call_subscriptionString : string;
  call_errorCode : Z;
  call_description : string
}.

(** What is written to [sys.stderr]. *)
Inductive StderrItem :=
  | Printed (line : string)
  | Traceback (e : Exception).

(** ** What session.py imports

    [internals] (the C layer), [utils.get_handle], [exception._ExceptionUtil],
    [SessionOptions], [AbstractSession] and [EventQueue] are not part of the
    module.  Their state is the opaque [ExtState]; a call is a function on it.
    A helper that takes the error callback is given by the calls it makes to
    the callback, in order, and its return code. *)
Class External := {
  ExtState : Type;
  EventQueueState : Type;
  get_handle : PyObj -> option Z;
  str_format_mode : PyObj -> string;
  exception_of_code : Z -> Exception;
  internals_SUBSCRIPTIONPREPROCESS_INVALID_SUBSCRIPTION_STRING : Z;
  internals_SUBSCRIPTIONPREPROCESS_CORRELATIONID_ERROR : Z;
  SessionOptions_new : ExtState -> PyObj * ExtState;
  Session_createHelper :
    option Z -> option nat -> option Z -> ExtState -> Z * ExtState;
  blpapi_Session_getAbstractSession : Z -> Z;
  AbstractSession_init : nat -> Z -> ExtState -> ExtState;
  blpapi_Session_start : Z -> ExtState -> Z * ExtState;
  blpapi_Session_stop : Z -> ExtState -> Z * ExtState;
  blpapi_Session_nextEvent : Z -> Z -> ExtState -> (Z * Z) * ExtState;
  blpapi_Session_tryNextEvent : Z -> ExtState -> (Z * Z) * ExtState;
  blpapi_Session_subscribe :
    Z -> option Z -> option Z -> string -> ExtState -> Z * ExtState;
  blpapi_Session_subscribeEx_helper :
    Z -> option Z -> option Z -> string -> ExtState ->
    (list AppenderCall * Z) * ExtState;
  blpapi_Session_resubscribe :
    Z -> option Z -> string -> ExtState -> Z * ExtState;
  blpapi_Session_resubscribeWithId :
    Z -> option Z -> Z -> string -> ExtState -> Z * ExtState;
  blpapi_Session_resubscribeEx_helper :
    Z -> option Z -> string -> ExtState -> (list AppenderCall * Z) * ExtState;
  blpapi_Session_resubscribeWithIdEx_helper :
    Z -> option Z -> Z -> string -> ExtState ->
    (list AppenderCall * Z) * ExtState;
  blpapi_Session_sendRequest :
    Z -> option Z -> PyObj -> option Z -> option Z -> string ->
    ExtState -> Z * ExtState;
  blpapi_Session_sendRequestTemplate :
    Z -> option Z -> PyObj -> ExtState -> Z * ExtState;
  blpapi_Session_createSnapshotRequestTemplate :
    Z -> string -> option Z -> PyObj -> ExtState -> (Z * Z) * ExtState;
  _registerSession : Session -> EventQueueState -> EventQueueState
}.

Section SessionModel.
Context `{External}.

(** ** The world a session method runs in *)

Record World := mkWorld {
  ext : ExtState;
  (** live [Session] objects, by identity: what a weak reference still reaches *)
  live_sessions : gmap nat Session;
  (** the [CorrelationId] objects created so far *)
  correlation_ids : gset nat;
  (** the [EventQueue] objects, by identity *)
  event_queues : gmap nat EventQueueState;
  (** the callbacks registered with [atexit], oldest first; each is a bound
      [stop] method, given by the session it is bound to *)
  atexit_callbacks : list Session;
  stderr : list StderrItem
}.

Definition set_ext (x : ExtState) (w : World) : World :=
  mkWorld x (live_sessions w) (correlation_ids w) (event_queues w)
          (atexit_callbacks w) (stderr w).

Definition set_live_sessions (m : gmap nat Session) (w : World) : World :=
  mkWorld (ext w) m (correlation_ids w) (event_queues w)
          (atexit_callbacks w) (stderr w).

Definition set_correlation_ids (s : gset nat) (w : World) : World :=
  mkWorld (ext w) (live_sessions w) s (event_queues w)
          (atexit_callbacks w) (stderr w).

Definition set_event_queues (m : gmap nat EventQueueState) (w : World) : World :=
  mkWorld (ext w) (live_sessions w) (correlation_ids w) m
          (atexit_callbacks w) (stderr w).

Definition set_atexit_callbacks (l : list Session) (w : World) : World :=
  mkWorld (ext w) (live_sessions w) (correlation_ids w) (event_queues w)
          l (stderr w).

Definition set_stderr (l : list StderrItem) (w : World) : World :=
  mkWorld (ext w) (live_sessions w) (correlation_ids w) (event_queues w)
          (atexit_callbacks w) l.

(** ** The monad of a method body: state and exceptions *)

Definition M (A : Type) : Type := World -> result A * World.

Definition ret {A} (a : A) : M A := fun w => (Return a, w).

Definition raise {A} (e : Exception) : M A := fun w => (Raise e, w).

Definition bind {A B} (m : M A) (k : A -> M B) : M B :=
  fun w =>
    match m w with
    | (Return a, w') => k a w'
    | (Raise e, w') => (Raise e, w')
    | (Exit n, w') => (Exit n, w')
    end.

Notation "'let*' x ':=' m 'in' k" := (bind m (fun x => k))
  (at level 10, x name, m at level 100, k at level 200).

(** A call into the outside: it changes [ext] only and does not raise. *)
Definition ext_call {A} (f : ExtState -> A * ExtState) : M A :=
  fun w => let '(a, x) := f (ext w) in (Return a, set_ext x w).

(** Modelled from the spec: [_ExceptionUtil.raiseOnError] (exception.py is
    not under src/).  "The external transport layer reports failure for a
    submitted operation - surfaced as a raised error to the caller of the
    submitting call": code zero passes, any other code raises the exception
    the code stands for. *)
Definition raiseOnError (errorCode : Z) : M unit :=
  if errorCode =? 0 then ret tt else raise (exception_of_code errorCode).

(** ** subscribe and resubscribe *)

(** [SubscriptionPreprocessError.ErrorCode(errorCode)]: lookup of an enum
    member by value. *)
Definition ErrorCode_call (errorCode : Z)
  : result SubscriptionPreprocessError.ErrorCode :=
  if errorCode =? internals_SUBSCRIPTIONPREPROCESS_INVALID_SUBSCRIPTION_STRING
  then Return SubscriptionPreprocessError.SUBSCRIPTIONPREPROCESS_INVALID_SUBSCRIPTION_STRING
  else if errorCode =? internals_SUBSCRIPTIONPREPROCESS_CORRELATIONID_ERROR
  then Return SubscriptionPreprocessError.SUBSCRIPTIONPREPROCESS_CORRELATIONID_ERROR
  else Raise (ValueError (PyInt errorCode)).

(** The closure returned by [_createErrorAppender(errorList)],
    session.py:320-339: it appends one error to the list it closes over.
    The list is threaded through. *)
Definition errorAppender (errorList : list SubscriptionPreprocessError.t)
    (c : AppenderCall) : result (list SubscriptionPreprocessError.t) :=
  match ErrorCode_call (call_errorCode c) with
  | Return code =>
      Return (errorList ++
              [SubscriptionPreprocessError.mk (call_correlationId c)
                 (call_subscriptionString c) code (call_description c)])%list
  | Raise e => Raise e
  | Exit n => Exit n
  end.

(** The callback run on the calls a helper makes, in order; an exception of
    the callback ends the run. *)
Fixpoint run_appender (calls : list AppenderCall)
    (errorList : list SubscriptionPreprocessError.t)
  : result (list SubscriptionPreprocessError.t) :=
  match calls with
  | [] => Return errorList
  | c :: rest =>
      match errorAppender errorList c with
      | Return errorList' => run_appender rest errorList'
      | Raise e => Raise e
      | Exit n => Exit n
      end
  end.

(** A call of a [...Ex_helper] with [errorAppender] as its callback: the
    list after the call and the helper's return code. *)
Definition helper_call
    (helper : ExtState -> (list AppenderCall * Z) * ExtState)
    (errorList : list SubscriptionPreprocessError.t)
  : M (list SubscriptionPreprocessError.t * Z) :=
  fun w =>
    let '((calls, rc), x) := helper (ext w) in
    match run_appender calls errorList with
    | Return errorList' => (Return (errorList', rc), set_ext x w)
    | Raise e => (Raise e, set_ext x w)
    | Exit n => (Exit n, set_ext x w)
    end.

(** [Session.subscribe], session.py:341-409.  The result is [None] for
    Python's [None] and [Some l] for a list. *)
Definition subscribe (self : Session) (subscriptionList identity : PyObj)
    (requestLabel : string) (mode : PyObj)
  : M (option (list SubscriptionPreprocessError.t)) :=
  let* subMode := (fun w => (SubscriptionPreprocessMode_call mode, w)) in
  if SubscriptionPreprocessMode_eqb subMode FAIL_ON_FIRST_ERROR then
    let* rc := ext_call (blpapi_Session_subscribe (__handle self)
                           (get_handle subscriptionList)
                           (get_handle identity) requestLabel) in
    let* _ := raiseOnError rc in
    ret None
  else if SubscriptionPreprocessMode_eqb subMode RETURN_INDIVIDUAL_ERRORS then
    let errorList := [] in
    let* r :=
      helper_call (blpapi_Session_subscribeEx_helper (__handle self)
                     (get_handle subscriptionList)
                     (get_handle identity) requestLabel) errorList in
    let '(errorList, rc) := r in
    let* _ := raiseOnError rc in
    ret (Some errorList)
  else
    raise (InvalidArgumentException
             ("Unsupported SubscriptionPreprocessMode: '"
                ++ str_format_mode mode ++ "'") 0).

(** [Session.resubscribe], session.py:445-535; [resubscriptionId] is
    [None] or an int. *)
Definition resubscribe (self : Session) (subscriptionList : PyObj)
    (requestLabel : string) (resubscriptionId : option Z) (mode : PyObj)
  : M (option (list SubscriptionPreprocessError.t)) :=
  let* subMode := (fun w => (SubscriptionPreprocessMode_call mode, w)) in
  if SubscriptionPreprocessMode_eqb subMode FAIL_ON_FIRST_ERROR then
    let* rc :=
      match resubscriptionId with
      | None =>
          ext_call (blpapi_Session_resubscribe (__handle self)
                      (get_handle subscriptionList) requestLabel)
      | Some resubscriptionId =>
          ext_call (blpapi_Session_resubscribeWithId (__handle self)
                      (get_handle subscriptionList) resubscriptionId
                      requestLabel)
      end in
    let* _ := raiseOnError rc in
    ret None
  else if SubscriptionPreprocessMode_eqb subMode RETURN_INDIVIDUAL_ERRORS then
    let errorList := [] in
    let* r :=
      match resubscriptionId with
      | None =>
          helper_call (blpapi_Session_resubscribeEx_helper (__handle self)
                         (get_handle subscriptionList) requestLabel) errorList
      | Some resubscriptionId =>
          helper_call (blpapi_Session_resubscribeWithIdEx_helper
                         (__handle self) (get_handle subscriptionList)
                         resubscriptionId requestLabel) errorList
      end in
    let '(errorList, rc) := r in
    let* _ := raiseOnError rc in
    ret (Some errorList)
  else
    raise (InvalidArgumentException
             ("Unsupported SubscriptionPreprocessMode: '"
                ++ str_format_mode mode ++ "'") 0).

(** The error one callback invocation stands for, when its code is a member
    of [ErrorCode]. *)
Definition error_of_call (c : AppenderCall)
  : option SubscriptionPreprocessError.t :=
  match ErrorCode_call (call_errorCode c) with
  | Return code =>
      Some (SubscriptionPreprocessError.mk (call_correlationId c)
              (call_subscriptionString c) code (call_description c))
  | _ => None
  end.

(** What a call in mode [FAIL_ON_FIRST_ERROR] may end in, given the code the
    underlying call returned. *)
Definition fail_on_first_error_outcome (rc : Z)
    (r : result (option (list SubscriptionPreprocessError.t))) : Prop :=
  match r with
  | Return None => rc = 0
  | Raise e => rc <> 0 /\ e = exception_of_code rc
  | _ => False
  end.

(** What a call in mode [RETURN_INDIVIDUAL_ERRORS] may end in, given the
    callback invocations and the code of the underlying helper. *)
Definition individual_errors_outcome (calls : list AppenderCall) (rc : Z)
    (r : result (option (list SubscriptionPreprocessError.t))) : Prop :=
  match r with
  | Return (Some errorList) =>
      rc = 0 /\ mapM error_of_call calls = Some errorList
  | Raise e => rc <> 0 \/ mapM error_of_call calls = None
  | _ => False
  end.

(** ** The exit hook: atexit *)

(** Two bound methods [a.stop] and [b.stop] are equal when [a] and [b] are
    the same object. *)
Definition bound_stop_eqb (a b : Session) : bool :=
  Nat.eqb (self_id a) (self_id b).

(** [atexit.register(self.stop)] *)
Definition atexit_register (self : Session) : M unit :=
  fun w =>
    (Return tt, set_atexit_callbacks (atexit_callbacks w ++ [self])%list w).

(** [atexit.unregister(self.stop)]: every registered callback equal to it
    is removed. *)
Definition atexit_unregister (self : Session) : M unit :=
  fun w =>
    (Return tt,
     set_atexit_callbacks
       (List.filter (fun c => negb (bound_stop_eqb c self))
                    (atexit_callbacks w)) w).

(** ** Construction, start and stop *)

(** [Session.__init__], session.py:136-209, on the new object [self]. *)
Definition Session_init (self : nat) (options : PyObj)
    (eventHandler : option nat) (eventDispatcher : PyObj) : M Session :=
  if bool_decide (eventHandler = None) && negb (is_None eventDispatcher) then
    raise (InvalidArgumentException
             "eventDispatcher is specified but eventHandler is None" 0)
  else
    let* options :=
      if is_None options then ext_call SessionOptions_new else ret options in
    let handlerProxy :=
      match eventHandler with
      | Some _ => Some self
      | None => None
      end in
    let* handle :=
      ext_call (Session_createHelper (get_handle options) handlerProxy
                  (get_handle eventDispatcher)) in
    let session := mkSession self handle eventHandler handlerProxy in
    let* _ := atexit_register session in
    let* _ :=
      ext_call (fun x =>
        (tt, AbstractSession_init self
               (blpapi_Session_getAbstractSession handle) x)) in
    ret session.

(** [Session(options, eventHandler, eventDispatcher)]: a new object is made
    and initialised; it stays only when [__init__] returns. *)
Definition Session_new (options : PyObj) (eventHandler : option nat)
    (eventDispatcher : PyObj) : M Session :=
  fun w =>
    let self := fresh (dom (live_sessions w)) in
    match Session_init self options eventHandler eventDispatcher w with
    | (Return session, w') =>
        (Return session,
         set_live_sessions (<[self := session]> (live_sessions w')) w')
    | r => r
    end.

(** [Session.start], session.py:211-223. *)
Definition start (self : Session) : M bool :=
  let* rc := ext_call (blpapi_Session_start (__handle self)) in
  ret (rc =? 0).

(** [Session.stop], session.py:242-260. *)
Definition stop (self : Session) : M bool :=
  let* _ := atexit_unregister self in
  let* rc := ext_call (blpapi_Session_stop (__handle self)) in
  ret (rc =? 0).

(** Interpreter exit: the callbacks registered at that moment are called,
    last registered first; one that has been unregistered meanwhile is
    skipped.  The sessions whose [stop] was called are collected. *)
Fixpoint run_exitfuncs (pending : list Session) (w : World)
  : list Session * World :=
  match pending with
  | [] => ([], w)
  | s :: rest =>
      if existsb (bound_stop_eqb s) (atexit_callbacks w) then
        let '(_, w1) := stop s w in
        let '(called, w2) := run_exitfuncs rest w1 in
        (s :: called, w2)
      else run_exitfuncs rest w
  end.

Definition atexit_run_exitfuncs (w : World) : list Session * World :=
  run_exitfuncs (rev (atexit_callbacks w)) w.

(** ** Polling *)



(** ** Requests *)

(** [CorrelationId()]: a new object. *)
Definition CorrelationId_new : M PyObj :=
  fun w =>
    let c := fresh (correlation_ids w) in
    (Return (PyCorrelationId c),
     set_correlation_ids ({[ c ]} ∪ correlation_ids w) w).

(** [eventQueue._registerSession(self)] on whatever [eventQueue] holds. *)
Definition call_registerSession (eventQueue : PyObj) (self : Session)
  : M unit :=
  match eventQueue with
  | PyInstance ClsEventQueue q =>
      fun w =>
        (Return tt,
         set_event_queues (alter (_registerSession self) q (event_queues w)) w)
  | _ => raise (AttributeError "_registerSession")
  end.

(** [Session.sendRequest], session.py:565-625. *)
Definition sendRequest (self : Session) (request identity correlationId
    eventQueue : PyObj) (requestLabel : string) : M PyObj :=
  let* correlationId :=
    if is_None correlationId then CorrelationId_new else ret correlationId in
  let* res :=
    ext_call (blpapi_Session_sendRequest (__handle self) (get_handle request)
                correlationId (get_handle identity) (get_handle eventQueue)
                requestLabel) in
  let* _ := raiseOnError res in
  let* _ :=
    if negb (is_None eventQueue) then call_registerSession eventQueue self
    else ret tt in
  ret correlationId.

(** [Session.sendRequestTemplate], session.py:627-662. *)
Definition sendRequestTemplate (self : Session) (requestTemplate
    correlationId : PyObj) : M PyObj :=
  let* correlationId :=
    if is_None correlationId then CorrelationId_new else ret correlationId in
  let* res :=
    ext_call (blpapi_Session_sendRequestTemplate (__handle self)
                (get_handle requestTemplate) correlationId) in
  let* _ := raiseOnError res in
  ret correlationId.

(** session.py:749-760: which of the last two arguments is taken as the
    correlation id and which as the identity, [(cidArg, identityArg)]. *)
Definition createSnapshotRequestTemplate_args (correlationId identity : PyObj)
  : PyObj * PyObj :=
  let cidArg := correlationId in
  let identityArg := identity in
  if isinstance_CorrelationId identity then (identity, correlationId)
  else (cidArg, identityArg).

(** [Session.createSnapshotRequestTemplate], session.py:664-767. *)
Definition createSnapshotRequestTemplate (self : Session)
    (subscriptionString : string) (correlationId identity : PyObj)
  : M RequestTemplate :=
  let '(cidArg, identityArg) :=
    createSnapshotRequestTemplate_args correlationId identity in
  let* r :=
    ext_call (blpapi_Session_createSnapshotRequestTemplate (__handle self)
                subscriptionString (get_handle identityArg) cidArg) in
  let '(rc, template) := r in
  let* _ := raiseOnError rc in
  let reqTemplate := mkRequestTemplate template in
  ret reqTemplate.

(** ** The event dispatcher *)

(** The application's callables: [call_handler h event session] is the call
    [h(event, session)]. *)
Variable call_handler : nat -> Event -> Session -> M unit.

(** [sessionRef()]: the session if it is still alive, else [None]. *)
Definition sessionRef_call (sessionRef : nat) : M (option Session) :=
  fun w => (Return (live_sessions w !! sessionRef), w).

(** [try: body / except: handler], the bare [except] that takes every
    exception. *)
Definition try_except {A} (body : M A) (handler : Exception -> M A) : M A :=
  fun w =>
    match body w with
    | (Raise e, w') => handler e w'
    | r => r
    end.

(** [print(line, file=sys.stderr)] *)
Definition print_stderr (line : string) : M unit :=
  fun w => (Return tt, set_stderr (stderr w ++ [Printed line])%list w).

(** [traceback.print_exc(file=sys.stderr)] for the exception being handled *)
Definition print_exc (e : Exception) : M unit :=
  fun w => (Return tt, set_stderr (stderr w ++ [Traceback e])%list w).

(** [os._exit(status)] *)
Definition os_exit {A} (status : Z) : M A :=
  fun w => (Exit status, w).

(** [Session.__dispatchEvent], session.py:121-134. *)
Definition __dispatchEvent (sessionRef : nat) (eventHandle : Z) : M unit :=
  try_except
    (let* session := sessionRef_call sessionRef in
     match session with
     | Some session =>
         let event := mkEvent eventHandle {[ self_id session ]} in
         match __handler session with
         | Some handler => call_handler handler event session
         | None => raise (AttributeError "_Session__handler")
         end
     | None => ret tt
     end)
    (fun e =>
       let* _ := print_stderr "Exception in event handler:" in
       let* _ := print_exc e in
       os_exit 1).

End SessionModel.

(** ** The other methods of the session

    [startAsync], [stopAsync], [unsubscribe] and [setStatusCorrelationId]
    call four more functions of [internals]. *)
Class ExternalRest `{External} := {
  blpapi_Session_startAsync : Z -> ExtState -> Z * ExtState;
  blpapi_Session_stopAsync : Z -> ExtState -> Z * ExtState;
  blpapi_Session_unsubscribe :
    Z -> option Z -> PyObj -> ExtState -> Z * ExtState;
  blpapi_Session_setStatusCorrelationId :
    Z -> option Z -> option Z -> PyObj -> ExtState -> Z * ExtState
}.

Section SessionModelRest.
Context `{ExternalRest}.

Notation "'let*' x ':=' m 'in' k" := (bind m (fun x => k))
  (at level 10, x name, m at level 100, k at level 200).

(** [Session.startAsync], session.py:225-240. *)
Definition startAsync (self : Session) : M bool :=
  let* rc := ext_call (blpapi_Session_startAsync (__handle self)) in
  ret (rc =? 0).

(** [Session.stopAsync], session.py:262-275. *)
Definition stopAsync (self : Session) : M bool :=
  let* rc := ext_call (blpapi_Session_stopAsync (__handle self)) in
  ret (rc =? 0).

(** [Session.unsubscribe], session.py:411-443. *)
Definition unsubscribe (self : Session) (subscriptionList : PyObj) : M unit :=
  let* rc :=
    ext_call (blpapi_Session_unsubscribe (__handle self)
                (get_handle subscriptionList) PyNone) in
  raiseOnError rc.

(** [Session.setStatusCorrelationId], session.py:537-563. *)
Definition setStatusCorrelationId (self : Session) (service correlationId
    identity : PyObj) : M unit :=
  let* rc :=
    ext_call (blpapi_Session_setStatusCorrelationId (__handle self)
                (get_handle service) (get_handle identity) correlationId) in
  raiseOnError rc.

(** The values of the members of [SubscriptionPreprocessError.ErrorCode],
    session.py:776-783. *)
Definition ErrorCode_value (e : SubscriptionPreprocessError.ErrorCode) : Z :=
  match e with
  | SubscriptionPreprocessError.SUBSCRIPTIONPREPROCESS_INVALID_SUBSCRIPTION_STRING =>
      internals_SUBSCRIPTIONPREPROCESS_INVALID_SUBSCRIPTION_STRING
  | SubscriptionPreprocessError.SUBSCRIPTIONPREPROCESS_CORRELATIONID_ERROR =>
      internals_SUBSCRIPTIONPREPROCESS_CORRELATIONID_ERROR
  end.

(** The body of [Session.stop], session.py:259-260, over the call it makes:
    [stop_with call self] is [stop self] with [call] in the place of
    [internals.blpapi_Session_stop(self.__handle)], so that what the body does
    can be stated for a call that raises as well. *)
Definition stop_with (call : M Z) (self : Session) : M bool :=
  let* _ := atexit_unregister self in
  let* rc := call in
  ret (rc =? 0).

(** The callbacks of the registry that are not the [stop] of [self]. *)
Definition other_callbacks (self : Session) (callbacks : list Session)
  : list Session :=
  List.filter (fun c => negb (bound_stop_eqb c self)) callbacks.

(** What the dispatcher does with the outcome of the handler,
    session.py:131-134. *)
Definition dispatch_outcome (r : result unit * World) : result unit * World :=
  match r with
  | (Raise e, w) =>
      (Exit 1,
       set_stderr
         (stderr w ++ [Printed "Exception in event handler:"; Traceback e])%list
         w)
  | _ => r
  end.

End SessionModelRest.

(** ** Entries of a subscription list *)

Record SubscriptionEntry := mkSubscriptionEntry {
  entry_correlationId : PyObj;
  entry_subscriptionString : string
}.

(** Modelled from the spec: the preprocessing inside the [...Ex_helper]s of
    [internals], which is not under src/.  "Every syntactically/semantically
    invalid entry is reported as a SubscriptionPreprocessError in a result
    list (in submission order)": the callback is called once for each invalid
    entry, in the order of the entries, with the entry's correlation id and
    subscription string.  [check e] is [None] for a valid entry, and the error
    code and description otherwise. *)
Definition preprocess_calls (check : SubscriptionEntry -> option (Z * string))
    (entries : list SubscriptionEntry) : list AppenderCall :=
  omap (fun e =>
          match check e with
          | Some (code, description) =>
              Some (mkAppenderCall (entry_correlationId e)
                      (entry_subscriptionString e) code description)
          | None => None
          end) entries.

(** The invalid entries, in submission order. *)
Definition invalid_entries (check : SubscriptionEntry -> option (Z * string))
    (entries : list SubscriptionEntry) : list SubscriptionEntry :=
  List.filter (fun e => bool_decide (is_Some (check e))) entries.

(** An error of the returned list reports an entry: it carries the entry's
    correlation id and string, and the code and description of its check. *)
Definition reports_entry `{External}
    (check : SubscriptionEntry -> option (Z * string))
    (e : SubscriptionEntry) (err : SubscriptionPreprocessError.t) : Prop :=
  SubscriptionPreprocessError.correlationId err = entry_correlationId e /\
  SubscriptionPreprocessError.subscriptionString err =
    entry_subscriptionString e /\
  exists code,
    check e = Some (code, SubscriptionPreprocessError.description err) /\
    ErrorCode_call code = Return (SubscriptionPreprocessError.errorCode err).

(** A value that [SubscriptionPreprocessMode(...)] accepts. *)
Definition supported_mode (mode : PyObj) : bool :=
  match SubscriptionPreprocessMode_call mode with
  | Return _ => true
  | _ => false
  end.

(** ** A concrete outside

    Every submission answers [rc], both helpers report [calls], and each call
    is logged in the state.  It serves to run the model on concrete inputs. *)
Definition scripted (rc : Z) (calls : list AppenderCall) : External := {|
  ExtState := list string;
  EventQueueState := list nat;
  get_handle o :=
    match o with
    | PyInstance _ a => Some (Z.of_nat a)
    | _ => None
    end;
  str_format_mode _ := "?";
  exception_of_code c :=
    if c =? 131072 then InvalidStateException "" c
    else UnknownErrorException "" c;
  internals_SUBSCRIPTIONPREPROCESS_INVALID_SUBSCRIPTION_STRING := 1;
  internals_SUBSCRIPTIONPREPROCESS_CORRELATIONID_ERROR := 2;
  SessionOptions_new x :=
    (PyInstance ClsSessionOptions 0, (x ++ ["SessionOptions"])%list);
  Session_createHelper _ _ _ x :=
    (Z.of_nat (length x), (x ++ ["Session_createHelper"])%list);
  blpapi_Session_getAbstractSession h := h;
  AbstractSession_init _ _ x := (x ++ ["AbstractSession.__init__"])%list;
  blpapi_Session_start _ x := (rc, (x ++ ["start"])%list);
  blpapi_Session_stop _ x := (rc, (x ++ ["stop"])%list);
  blpapi_Session_nextEvent _ _ x := ((rc, 0), (x ++ ["nextEvent"])%list);
  blpapi_Session_tryNextEvent _ x := ((rc, 0), (x ++ ["tryNextEvent"])%list);
  blpapi_Session_subscribe _ _ _ _ x := (rc, (x ++ ["subscribe"])%list);
  blpapi_Session_subscribeEx_helper _ _ _ _ x :=
    ((calls, rc), (x ++ ["subscribeEx"])%list);
  blpapi_Session_resubscribe _ _ _ x := (rc, (x ++ ["resubscribe"])%list);
  blpapi_Session_resubscribeWithId _ _ _ _ x :=
    (rc, (x ++ ["resubscribeWithId"])%list);
  blpapi_Session_resubscribeEx_helper _ _ _ x :=
    ((calls, rc), (x ++ ["resubscribeEx"])%list);
  blpapi_Session_resubscribeWithIdEx_helper _ _ _ _ x :=
    ((calls, rc), (x ++ ["resubscribeWithIdEx"])%list);
  blpapi_Session_sendRequest _ _ _ _ _ _ x :=
    (rc, (x ++ ["sendRequest"])%list);
  blpapi_Session_sendRequestTemplate _ _ _ x :=
    (rc, (x ++ ["sendRequestTemplate"])%list);
  blpapi_Session_createSnapshotRequestTemplate _ _ _ _ x :=
    ((rc, 0), (x ++ ["createSnapshotRequestTemplate"])%list);
  _registerSession s q := (q ++ [self_id s])%list
|}.

(** The four other functions, in the same manner. *)
Definition scripted_rest (rc : Z) (calls : list AppenderCall)
  : @ExternalRest (scripted rc calls) := {|
  blpapi_Session_startAsync _ (x : @ExtState (scripted rc calls)) :=
    (rc, (x ++ ["startAsync"])%list : @ExtState (scripted rc calls));
  blpapi_Session_stopAsync _ (x : @ExtState (scripted rc calls)) :=
    (rc, (x ++ ["stopAsync"])%list : @ExtState (scripted rc calls));
  blpapi_Session_unsubscribe _ _ _ (x : @ExtState (scripted rc calls)) :=
    (rc, (x ++ ["unsubscribe"])%list : @ExtState (scripted rc calls));
  blpapi_Session_setStatusCorrelationId _ _ _ _
      (x : @ExtState (scripted rc calls)) :=
    (rc, (x ++ ["setStatusCorrelationId"])%list
         : @ExtState (scripted rc calls))
|}.

(** The world before anything has happened. *)
Definition empty_world (rc : Z) (calls : list AppenderCall)
  : @World (scripted rc calls) :=
  @mkWorld (scripted rc calls) ([] : list string) ∅ ∅ ∅ [] [].

(** A session constructed with handler 7 in the empty world, and the world
    after its construction. *)
Definition handler_session : Session :=
  mkSession 0 1 (Some 7%nat) (Some 0%nat).

Definition handler_session_world (rc : Z) (calls : list AppenderCall)
  : @World (scripted rc calls) :=
  snd (@Session_new (scripted rc calls) PyNone (Some 7%nat) PyNone
         (empty_world rc calls)).

(** A handler that raises on every event. *)
Definition failing_handler `{External} (h : nat) (event : Event)
    (session : Session) : M unit :=
  raise (OtherException "handler failed").

(** * Properties *)

Section SessionFacts.
Context `{External}.

(** ** The error callback *)

Lemma errorAppender_error_of_call errorList c :
  errorAppender errorList c =
    match error_of_call c with
    | Some e => Return (errorList ++ [e])%list
    | None => Raise (ValueError (PyInt (call_errorCode c)))
    end.
Proof.
  unfold errorAppender, error_of_call, ErrorCode_call.
  repeat case_match; congruence.
Qed.

Lemma run_appender_never_exits calls errorList n :
  run_appender calls errorList <> Exit n.
Proof.
  revert errorList.
  induction calls as [|c rest IH]; intros errorList; simpl; [discriminate|].
  rewrite errorAppender_error_of_call.
  destruct (error_of_call c); [apply IH | discriminate].
Qed.

(** The list after the run is the list before it followed by one error per
    invocation, in the order of the invocations. *)
Lemma run_appender_Return calls errorList errorList' :
  run_appender calls errorList = Return errorList' <->
  exists es, mapM error_of_call calls = Some es /\
             errorList' = (errorList ++ es)%list.
Proof.
  revert errorList.
  induction calls as [|c rest IH]; intros errorList; simpl.
  - split.
    + intros [= <-]. exists []. by rewrite app_nil_r.
    + intros (es & [= <-] & ->). by rewrite app_nil_r.
  - rewrite errorAppender_error_of_call.
    destruct (error_of_call c) as [e|]; simpl.
    + rewrite IH. split.
      * intros (es & -> & ->). exists (e :: es). simpl.
        by rewrite <- app_assoc.
      * intros (es & Hes & ->).
        destruct (mapM error_of_call rest) as [es'|]; simpl in Hes;
          [|discriminate].
        injection Hes as <-. exists es'. by rewrite <- app_assoc.
    + split; [discriminate | intros (es & Hes & _); discriminate].
Qed.

Lemma run_appender_Raise calls errorList e :
  run_appender calls errorList = Raise e ->
  mapM error_of_call calls = None.
Proof.
  intros Hrun.
  destruct (mapM error_of_call calls) as [es|] eqn:Hes; [|done].
  assert (run_appender calls errorList = Return (errorList ++ es)%list) as Hr
    by (apply run_appender_Return; eauto).
  congruence.
Qed.

(** A helper call with the callback, by the helper's invocations and code. *)
Lemma helper_call_outcome helper w calls rc x :
  helper (ext w) = ((calls, rc), x) ->
  (exists es, mapM error_of_call calls = Some es /\
              helper_call helper [] w = (Return (es, rc), set_ext x w)) \/
  (mapM error_of_call calls = None /\
   exists e, helper_call helper [] w = (Raise e, set_ext x w)).
Proof.
  intros Hh. unfold helper_call. rewrite Hh.
  destruct (run_appender calls []) as [l|e|n] eqn:Hrun.
  - left. apply run_appender_Return in Hrun as (es & Hes & ->). eauto.
  - right. split; [by eapply run_appender_Raise | eauto].
  - by apply run_appender_never_exits in Hrun.
Qed.

Lemma individual_errors_after_helper helper w calls rc x :
  helper (ext w) = ((calls, rc), x) ->
  individual_errors_outcome calls rc
    (fst (bind (helper_call helper [])
            (fun r => let '(errorList, rc) := r in
                      bind (raiseOnError rc)
                        (fun _ => ret (Some errorList))) w)).
Proof.
  intros Hh. unfold bind.
  destruct (helper_call_outcome _ _ _ _ _ Hh)
    as [(es & Hes & ->) | (Hnone & e & ->)]; simpl; [|by right].
  unfold raiseOnError, ret, raise.
  destruct (rc =? 0) eqn:Hrc; simpl.
  - apply Z.eqb_eq in Hrc. done.
  - apply Z.eqb_neq in Hrc. by left.
Qed.

Lemma fail_on_first_error_after_call (call : ExtState -> Z * ExtState) w :
  fail_on_first_error_outcome (fst (call (ext w)))
    (fst (bind (ext_call call)
            (fun rc => bind (raiseOnError rc) (fun _ => ret None)) w)).
Proof.
  unfold bind, ext_call, raiseOnError, ret, raise.
  destruct (call (ext w)) as [rc x]; simpl.
  destruct (rc =? 0) eqn:Hrc; simpl.
  - by apply Z.eqb_eq in Hrc.
  - by apply Z.eqb_neq in Hrc.
Qed.

Lemma errors_report_invalid_entries check entries errorList :
  mapM error_of_call (preprocess_calls check entries) = Some errorList ->
  Forall2 (reports_entry check) (invalid_entries check entries) errorList.
Proof.
  revert errorList.
  induction entries as [|e entries IH]; intros errorList; simpl.
  - intros [= <-]. constructor.
  - unfold preprocess_calls, invalid_entries in *. simpl.
    destruct (check e) as [[code description]|] eqn:Hcheck; simpl.
    + intros Heq.
      apply bind_Some in Heq as (err & Herr & Heq).
      apply bind_Some in Heq as (es & Hes & Heq).
      injection Heq as <-.
      constructor; [|by apply IH].
      unfold error_of_call in Herr. simpl in Herr.
      destruct (ErrorCode_call code) as [ec| |] eqn:Hcode; try discriminate.
      injection Herr as <-.
      repeat split; simpl. exists code. by rewrite Hcheck.
    + apply IH.
Qed.

(** ** subscribe and resubscribe by mode *)

(** C1, as amended.  In mode [FAIL_ON_FIRST_ERROR], [subscribe] and
    [resubscribe] return [None] when the underlying call returns code zero and
    raise the error of the code otherwise.  In mode
    [RETURN_INDIVIDUAL_ERRORS] they never return [None]: they raise when the
    underlying helper returns a nonzero code (or reports a code that is no
    [ErrorCode]), and otherwise return the list holding one error per
    invocation of the callback, in the order of the invocations.  When the
    helper reports the invalid entries in submission order, the list holds
    one error per invalid entry, in submission order. *)
Theorem subscribe_resubscribe_by_mode self subscriptionList identity
    requestLabel resubscriptionId w :
  let handle := __handle self in
  let list_handle := get_handle subscriptionList in
  fail_on_first_error_outcome
    (fst (blpapi_Session_subscribe handle list_handle (get_handle identity)
            requestLabel (ext w)))
    (fst (subscribe self subscriptionList identity requestLabel
            (PyMode FAIL_ON_FIRST_ERROR) w)) /\
  fail_on_first_error_outcome
    (fst (match resubscriptionId with
          | None =>
              blpapi_Session_resubscribe handle list_handle requestLabel
          | Some i =>
              blpapi_Session_resubscribeWithId handle list_handle i
                requestLabel
          end (ext w)))
    (fst (resubscribe self subscriptionList requestLabel resubscriptionId
            (PyMode FAIL_ON_FIRST_ERROR) w)) /\
  (let '((calls, rc), _) :=
     blpapi_Session_subscribeEx_helper handle list_handle
       (get_handle identity) requestLabel (ext w) in
   individual_errors_outcome calls rc
     (fst (subscribe self subscriptionList identity requestLabel
             (PyMode RETURN_INDIVIDUAL_ERRORS) w))) /\
  (let '((calls, rc), _) :=
     match resubscriptionId with
     | None =>
         blpapi_Session_resubscribeEx_helper handle list_handle requestLabel
     | Some i =>
         blpapi_Session_resubscribeWithIdEx_helper handle list_handle i
           requestLabel
     end (ext w) in
   individual_errors_outcome calls rc
     (fst (resubscribe self subscriptionList requestLabel resubscriptionId
             (PyMode RETURN_INDIVIDUAL_ERRORS) w))) /\
  (forall check entries rc errorList,
     individual_errors_outcome (preprocess_calls check entries) rc
       (Return (Some errorList)) ->
     Forall2 (reports_entry check) (invalid_entries check entries) errorList).
Proof.
  intros handle list_handle. repeat split.
  - apply fail_on_first_error_after_call.
  - destruct resubscriptionId; apply fail_on_first_error_after_call.
  - destruct (blpapi_Session_subscribeEx_helper _ _ _ _ _) as [[calls rc] x]
      eqn:Hh.
    by apply (individual_errors_after_helper _ _ _ _ _ Hh).
  - destruct resubscriptionId as [i|].
    + destruct (blpapi_Session_resubscribeWithIdEx_helper _ _ _ _ _)
        as [[calls rc] x] eqn:Hh.
      by apply (individual_errors_after_helper _ _ _ _ _ Hh).
    + destruct (blpapi_Session_resubscribeEx_helper _ _ _ _)
        as [[calls rc] x] eqn:Hh.
      by apply (individual_errors_after_helper _ _ _ _ _ Hh).
  - intros check entries rc errorList [_ Hes].
    by apply errors_report_invalid_entries.
Qed.

(** C4.  A mode value that [SubscriptionPreprocessMode(...)] does not accept
    makes [subscribe] and [resubscribe] raise the [ValueError] of the enum
    lookup, before any call is made; the branch that raises
    [InvalidArgumentException] is never taken, since a member is one of the
    two modes. *)
Theorem unsupported_mode_raises_ValueError self subscriptionList identity
    requestLabel resubscriptionId mode w :
  supported_mode mode = false ->
  subscribe self subscriptionList identity requestLabel mode w =
    (Raise (ValueError mode), w) /\
  resubscribe self subscriptionList requestLabel resubscriptionId mode w =
    (Raise (ValueError mode), w) /\
  (forall subMode,
     SubscriptionPreprocessMode_eqb subMode FAIL_ON_FIRST_ERROR
     || SubscriptionPreprocessMode_eqb subMode RETURN_INDIVIDUAL_ERRORS
     = true).
Proof.
  intros Hmode. unfold supported_mode in Hmode.
  assert (SubscriptionPreprocessMode_call mode = Raise (ValueError mode))
    as Hcall.
  { unfold SubscriptionPreprocessMode_call in *.
    repeat case_match; congruence. }
  unfold subscribe, resubscribe, bind. rewrite Hcall.
  repeat split. by intros [].
Qed.

(** ** createSnapshotRequestTemplate *)

(** C3.  When the value in the identity slot is a [CorrelationId], the
    underlying call gets it as the correlation id and gets the value of the
    correlationId slot as the identity; otherwise the two are used as
    positioned.  So a call with the two swapped is the call with the two in
    order. *)
Theorem createSnapshotRequestTemplate_swaps_by_type self subscriptionString
    correlationId identity w :
  let '(cidArg, identityArg) :=
    if isinstance_CorrelationId identity then (identity, correlationId)
    else (correlationId, identity) in
  createSnapshotRequestTemplate_args correlationId identity =
    (cidArg, identityArg) /\
  createSnapshotRequestTemplate self subscriptionString correlationId
      identity w =
    (let '((rc, template), x) :=
       blpapi_Session_createSnapshotRequestTemplate (__handle self)
         subscriptionString (get_handle identityArg) cidArg (ext w) in
     (if rc =? 0 then Return (mkRequestTemplate template)
      else Raise (exception_of_code rc), set_ext x w)) /\
  (if isinstance_CorrelationId identity
      && negb (isinstance_CorrelationId correlationId)
   then createSnapshotRequestTemplate self subscriptionString correlationId
          identity w =
        createSnapshotRequestTemplate self subscriptionString identity
          correlationId w
   else True).
Proof.
  unfold createSnapshotRequestTemplate, createSnapshotRequestTemplate_args.
  destruct (isinstance_CorrelationId identity) eqn:Hi;
    (split; [done|]);
    (split;
     [ unfold bind, ext_call, raiseOnError, ret, raise;
       destruct (blpapi_Session_createSnapshotRequestTemplate _ _ _ _ _)
         as [[rc template] x]; simpl; by destruct (rc =? 0)
     | ]); simpl; [|done].
  destruct (isinstance_CorrelationId correlationId) eqn:Hc; simpl; done.
Qed.

(** ** Construction *)

Lemma Session_init_Return self options eventHandler eventDispatcher w
    session w1 :
  Session_init self options eventHandler eventDispatcher w =
    (Return session, w1) ->
  self_id session = self /\
  __handler session = eventHandler /\
  atexit_callbacks w1 = (atexit_callbacks w ++ [session])%list.
Proof.
  unfold Session_init.
  destruct (bool_decide (eventHandler = None) && negb (is_None eventDispatcher));
    [discriminate|].
  unfold bind, ext_call, ret, atexit_register.
  destruct (is_None options); simpl.
  - destruct (SessionOptions_new (ext w)) as [o x]; simpl.
    destruct (Session_createHelper _ _ _ _) as [handle x']; simpl.
    by intros [= <- <-].
  - destruct (Session_createHelper _ _ _ _) as [handle x']; simpl.
    by intros [= <- <-].
Qed.

Lemma Session_init_accepts self options eventHandler eventDispatcher w :
  bool_decide (eventHandler = None) && negb (is_None eventDispatcher) = false ->
  exists session w1,
    Session_init self options eventHandler eventDispatcher w =
      (Return session, w1).
Proof.
  intros Hok. unfold Session_init. rewrite Hok.
  unfold bind, ext_call, ret, atexit_register.
  destruct (is_None options); simpl.
  - destruct (SessionOptions_new (ext w)) as [o x]; simpl.
    destruct (Session_createHelper _ _ _ _) as [handle x']; simpl. eauto.
  - destruct (Session_createHelper _ _ _ _) as [handle x']; simpl. eauto.
Qed.

(** C7.  A dispatcher without a handler is refused with
    [InvalidArgumentException] and the world is as before: nothing was
    created.  Every other combination passes the check and the session is
    constructed. *)
Theorem Session_constructor_validation options eventHandler eventDispatcher w :
  if bool_decide (eventHandler = None) && negb (is_None eventDispatcher)
  then
    Session_new options eventHandler eventDispatcher w =
      (Raise (InvalidArgumentException
                "eventDispatcher is specified but eventHandler is None" 0), w)
  else
    exists session w1,
      Session_new options eventHandler eventDispatcher w =
        (Return session, w1) /\
      __handler session = eventHandler /\
      live_sessions w1 !! self_id session = Some session.
Proof.
  destruct (bool_decide (eventHandler = None) && negb (is_None eventDispatcher))
    eqn:Hcheck.
  - unfold Session_new, Session_init. by rewrite Hcheck.
  - destruct (Session_init_accepts (fresh (dom (live_sessions w))) options
                eventHandler eventDispatcher w Hcheck) as (session & w1 & Hinit).
    exists session, (set_live_sessions
                       (<[fresh (dom (live_sessions w)) := session]>
                          (live_sessions w1)) w1).
    unfold Session_new. rewrite Hinit.
    apply Session_init_Return in Hinit as (Hid & Hh & _).
    repeat split; [done|]. simpl. rewrite Hid. apply lookup_insert_eq.
Qed.

(** ** The exit hook *)

Lemma stop_atexit_callbacks self w :
  atexit_callbacks (snd (stop self w)) =
    List.filter (fun c => negb (bound_stop_eqb c self)) (atexit_callbacks w).
Proof.
  unfold stop, bind, atexit_unregister, ext_call, ret. simpl.
  by destruct (blpapi_Session_stop _ _).
Qed.

Lemma stop_unregisters self w c :
  In c (atexit_callbacks (snd (stop self w))) -> self_id c <> self_id self.
Proof.
  rewrite stop_atexit_callbacks. intros [_ Hne]%filter_In.
  unfold bound_stop_eqb in Hne. apply negb_true_iff, Nat.eqb_neq in Hne. done.
Qed.

(** At exit [stop] is called only on sessions whose hook is registered. *)
Lemma run_exitfuncs_called_registered pending w c :
  In c (fst (run_exitfuncs pending w)) ->
  existsb (bound_stop_eqb c) (atexit_callbacks w) = true.
Proof.
  revert w. induction pending as [|s rest IH]; intros w; simpl; [done|].
  destruct (existsb (bound_stop_eqb s) (atexit_callbacks w)) eqn:Hreg.
  - destruct (stop s w) as [r w1] eqn:Hstop.
    destruct (run_exitfuncs rest w1) as [called w2] eqn:Hrun. simpl.
    intros [<- | Hin]; [done|].
    specialize (IH w1). rewrite Hrun in IH. specialize (IH Hin).
    assert (w1 = snd (stop s w)) as -> by (by rewrite Hstop).
    rewrite stop_atexit_callbacks in IH.
    apply existsb_exists in IH as (c' & [Hc' _]%filter_In & Heq).
    apply existsb_exists. eauto.
  - apply IH.
Qed.

Lemma not_registered_not_called w c :
  (forall c', In c' (atexit_callbacks w) -> self_id c' <> self_id c) ->
  forall c', In c' (fst (atexit_run_exitfuncs w)) -> self_id c' <> self_id c.
Proof.
  intros Hnot c' Hin Heq.
  apply run_exitfuncs_called_registered in Hin.
  apply existsb_exists in Hin as (c'' & Hc'' & Hid).
  unfold bound_stop_eqb in Hid. apply Nat.eqb_eq in Hid.
  apply (Hnot c'' Hc''). congruence.
Qed.

Lemma stop_result self w :
  let '(rc, x) := blpapi_Session_stop (__handle self) (ext w) in
  stop self w =
    (Return (rc =? 0),
     set_ext x
       (set_atexit_callbacks (other_callbacks self (atexit_callbacks w)) w)).
Proof.
  unfold stop, bind, atexit_unregister, ext_call, ret, other_callbacks. simpl.
  by destruct (blpapi_Session_stop _ _).
Qed.

(** The state of the outside after the run of the exit hooks is what the
    calls of [blpapi_Session_stop] on the handles of the sessions stopped, in
    the order they were stopped, make of it. *)
Lemma run_exitfuncs_ext pending w :
  ext (snd (run_exitfuncs pending w)) =
  fold_left (fun x c => snd (blpapi_Session_stop (__handle c) x))
    (fst (run_exitfuncs pending w)) (ext w).
Proof.
  revert w. induction pending as [|s rest IH]; intros w; simpl; [done|].
  destruct (existsb (bound_stop_eqb s) (atexit_callbacks w)); [|apply IH].
  pose proof (stop_result s w) as Hstop.
  destruct (blpapi_Session_stop (__handle s) (ext w)) as [rc x] eqn:Hcall.
  rewrite Hstop. specialize (IH (set_ext x
    (set_atexit_callbacks (other_callbacks s (atexit_callbacks w)) w))).
  destruct (run_exitfuncs rest _) as [called w2]. simpl in *.
  by rewrite Hcall.
Qed.

(** C8.  A constructed session has its [stop] registered with [atexit], and
    at exit it is the first to be stopped: [blpapi_Session_stop] is called on
    its handle, in the state of the outside as it is then, and the run goes on
    from what that call leaves.  [stop] first takes the hook out of the
    registry and then makes the underlying call: the call runs in the world
    without the hook, whatever the call does (return or raise), and [stop]
    returns whether the code is zero, leaving what the call left.  So an exit
    after [stop] does not call [stop] on the session again: every underlying
    call made at exit is on the handle of another session. *)
Theorem stop_unregisters_exit_hook options eventHandler eventDispatcher w
    session w1 :
  Session_new options eventHandler eventDispatcher w = (Return session, w1) ->
  In session (atexit_callbacks w1) /\
  (exists called w', atexit_run_exitfuncs w1 = (session :: called, w')) /\
  (let '(rc, x) := blpapi_Session_stop (__handle session) (ext w1) in
   atexit_run_exitfuncs w1 =
     (session ::
        fst (run_exitfuncs (rev (atexit_callbacks w))
               (set_ext x
                  (set_atexit_callbacks
                     (other_callbacks session (atexit_callbacks w1)) w1))),
      snd (run_exitfuncs (rev (atexit_callbacks w))
             (set_ext x
                (set_atexit_callbacks
                   (other_callbacks session (atexit_callbacks w1)) w1))))) /\
  stop session =
    stop_with (ext_call (blpapi_Session_stop (__handle session))) session /\
  forall w2,
    (forall call : M Z,
       stop_with call session w2 =
         bind call (fun rc => ret (rc =? 0))
           (set_atexit_callbacks
              (other_callbacks session (atexit_callbacks w2)) w2)) /\
    (let '(rc, x) := blpapi_Session_stop (__handle session) (ext w2) in
     stop session w2 =
       (Return (rc =? 0),
        set_ext x
          (set_atexit_callbacks
             (other_callbacks session (atexit_callbacks w2)) w2))) /\
    let w3 := snd (stop session w2) in
    atexit_callbacks w3 =
      List.filter (fun c => negb (bound_stop_eqb c session))
        (atexit_callbacks w2) /\
    (forall c, In c (atexit_callbacks w3) -> self_id c <> self_id session) /\
    (forall c, In c (fst (atexit_run_exitfuncs w3)) ->
               self_id c <> self_id session) /\
    ext (snd (atexit_run_exitfuncs w3)) =
      fold_left (fun x c => snd (blpapi_Session_stop (__handle c) x))
        (fst (atexit_run_exitfuncs w3)) (ext w3).
Proof.
  unfold Session_new.
  destruct (Session_init _ _ _ _ _) as [[s| |] w0] eqn:Hinit; try discriminate.
  intros [= <- <-].
  apply Session_init_Return in Hinit as (Hid & Hh & Hreg).
  assert (existsb (bound_stop_eqb s) (atexit_callbacks w0) = true) as Hfound.
  { rewrite Hreg, existsb_app. simpl. unfold bound_stop_eqb at 2.
    by rewrite Nat.eqb_refl, orb_true_r. }
  split; [|split; [|split; [|split]]].
  - simpl. rewrite Hreg. apply in_or_app. right. by left.
  - unfold atexit_run_exitfuncs. simpl.
    replace (rev (atexit_callbacks w0)) with (s :: rev (atexit_callbacks w))
      by (by rewrite Hreg, rev_unit).
    simpl. rewrite Hfound.
    destruct (stop s _) as [r wa]. destruct (run_exitfuncs _ wa) as [called wb].
    eauto.
  - pose proof (stop_result s
      (set_live_sessions
         (<[fresh (dom (live_sessions w)) := s]> (live_sessions w0)) w0))
      as Hstop.
    simpl in *.
    destruct (blpapi_Session_stop (__handle s) (ext w0)) as [rc x].
    unfold atexit_run_exitfuncs. simpl.
    replace (rev (atexit_callbacks w0)) with (s :: rev (atexit_callbacks w))
      by (by rewrite Hreg, rev_unit).
    simpl. rewrite Hfound, Hstop.
    by destruct (run_exitfuncs _ _).
  - reflexivity.
  - intros w2. split; [|split; [|split; [|split; [|split]]]].
    + intros call. unfold stop_with, bind, atexit_unregister, other_callbacks.
      reflexivity.
    + apply stop_result.
    + apply stop_atexit_callbacks.
    + intros c. apply stop_unregisters.
    + apply not_registered_not_called. intros c. apply stop_unregisters.
    + apply run_exitfuncs_ext.
Qed.

(** ** Requests *)

(** The correlation id a request goes out with: the caller's, or a new one. *)
Lemma correlationId_chosen correlationId w :
  (if is_None correlationId then CorrelationId_new else ret correlationId) w =
  if is_None correlationId
  then (Return (PyCorrelationId (fresh (correlation_ids w))),
        set_correlation_ids
          ({[ fresh (correlation_ids w) ]} ∪ correlation_ids w) w)
  else (Return correlationId, w).
Proof. by destruct (is_None correlationId). Qed.

(** Registering with the event queue, when asked to, makes no correlation
    id. *)
Lemma call_registration_kept eventQueue self w :
  exists r w',
    call_registerSession eventQueue self w = (r, w') /\
    correlation_ids w' = correlation_ids w.
Proof.
  unfold call_registerSession, raise.
  destruct eventQueue as [| | | | | |[] q]; simpl; eauto.
Qed.

(** C5.  When [sendRequest] or [sendRequestTemplate] returns, it returns the
    correlation id the caller supplied, which is the one the underlying call
    was made with; when the caller supplied none, it returns a
    [CorrelationId] object that did not exist before the call, and the
    underlying call was made with that one. *)
Theorem sendRequest_returns_token self request identity correlationId
    eventQueue requestLabel requestTemplate w :
  (forall r w',
     sendRequest self request identity correlationId eventQueue requestLabel w
       = (Return r, w') ->
     fst (blpapi_Session_sendRequest (__handle self) (get_handle request) r
            (get_handle identity) (get_handle eventQueue) requestLabel
            (ext w)) = 0 /\
     if is_None correlationId
     then exists c, r = PyCorrelationId c /\
                    (c ∉ correlation_ids w) /\ (c ∈ correlation_ids w')
     else r = correlationId /\ correlation_ids w' = correlation_ids w) /\
  (forall r w',
     sendRequestTemplate self requestTemplate correlationId w
       = (Return r, w') ->
     fst (blpapi_Session_sendRequestTemplate (__handle self)
            (get_handle requestTemplate) r (ext w)) = 0 /\
     if is_None correlationId
     then exists c, r = PyCorrelationId c /\
                    (c ∉ correlation_ids w) /\ (c ∈ correlation_ids w')
     else r = correlationId /\ correlation_ids w' = correlation_ids w).
Proof.
  split; intros r w'.
  - unfold sendRequest, bind. rewrite correlationId_chosen.
    unfold ext_call, raiseOnError, ret, raise.
    destruct (is_None correlationId) eqn:Hnone; simpl;
      destruct (blpapi_Session_sendRequest _ _ _ _ _ _ _) as [res x] eqn:Hcall;
      simpl;
      (destruct (res =? 0) eqn:Hres; simpl;
       [apply Z.eqb_eq in Hres; subst res | discriminate]);
      (destruct (is_None eventQueue); simpl;
       [ intros [= <- <-]; rewrite Hcall
       | lazymatch goal with
         | |- context [call_registerSession eventQueue self ?w0] =>
             destruct (call_registration_kept eventQueue self w0)
               as (r1 & w2 & Hreg & Hids)
         end;
         rewrite Hreg; destruct r1 as [[]| |]; try discriminate;
         intros [= Hr Hw]; subst r w'; rewrite Hcall; rewrite Hids ]);
      (split; [done|]); simpl.
    + eexists. split; [done|]. split; [apply is_fresh | apply elem_of_union; left; by apply elem_of_singleton].
    + eexists. split; [done|]. split; [apply is_fresh | apply elem_of_union; left; by apply elem_of_singleton].
    + done.
    + done.
  - unfold sendRequestTemplate, bind. rewrite correlationId_chosen.
    unfold ext_call, raiseOnError, ret, raise.
    destruct (is_None correlationId) eqn:Hnone; simpl;
      destruct (blpapi_Session_sendRequestTemplate _ _ _ _) as [res x]
        eqn:Hcall;
      simpl;
      (destruct (res =? 0) eqn:Hres; simpl;
       [apply Z.eqb_eq in Hres; subst res | discriminate]);
      intros [= <- <-]; rewrite Hcall; (split; [done|]); simpl.
    + eexists. split; [done|]. split; [apply is_fresh | apply elem_of_union; left; by apply elem_of_singleton].
    + done.
Qed.

(** C10.  When the underlying submission of [sendRequest] returns a nonzero
    code, the call raises the error of the code and [_registerSession] has not
    been called: the event queues are as before, so are the live sessions and
    the exit hooks, and no correlation id was made when the caller supplied
    one.  When it returns zero and an event queue was given, the session is
    registered with that queue. *)
Theorem sendRequest_registers_after_success self request identity
    correlationId eventQueue requestLabel w :
  let cid :=
    if is_None correlationId
    then PyCorrelationId (fresh (correlation_ids w)) else correlationId in
  let '(res, x) :=
    blpapi_Session_sendRequest (__handle self) (get_handle request) cid
      (get_handle identity) (get_handle eventQueue) requestLabel (ext w) in
  (res <> 0 ->
   exists w',
     sendRequest self request identity correlationId eventQueue requestLabel w
       = (Raise (exception_of_code res), w') /\
     event_queues w' = event_queues w /\
     ext w' = x /\
     live_sessions w' = live_sessions w /\
     atexit_callbacks w' = atexit_callbacks w /\
     (is_None correlationId = false -> correlation_ids w' = correlation_ids w))
  /\
  (res = 0 ->
   forall q, eventQueue = PyInstance ClsEventQueue q ->
   exists w',
     sendRequest self request identity correlationId eventQueue requestLabel w
       = (Return cid, w') /\
     event_queues w' = alter (_registerSession self) q (event_queues w)).
Proof.
  intros cid. subst cid.
  unfold sendRequest, bind. rewrite correlationId_chosen.
  unfold ext_call, raiseOnError, ret, raise, call_registerSession.
  destruct (is_None correlationId) eqn:Hnone; simpl;
    destruct (blpapi_Session_sendRequest _ _ _ _ _ _ _) as [res x];
    simpl; (split; [intros Hres | intros -> q ->; simpl; eauto]);
    apply Z.eqb_neq in Hres; rewrite Hres; simpl;
    eexists; (split; [done|]); simpl; repeat split; done.
Qed.

(** ** Polling *)




(** ** The event dispatcher *)

(** The dispatcher lets no exception out, whatever the handler does. *)
Lemma __dispatchEvent_never_raises call_handler sessionRef eventHandle w e w' :
  __dispatchEvent call_handler sessionRef eventHandle w <> (Raise e, w').
Proof.
  unfold __dispatchEvent, try_except.
  destruct (bind _ _ w) as [[[]|e0|n] w0]; discriminate.
Qed.

(** C6.  When the handler of a live session raises, the dispatcher writes the
    line "Exception in event handler:" and the traceback to stderr and ends
    the process with status 1; the call neither raises nor returns. *)
Theorem handler_exception_terminates_process call_handler sessionRef
    eventHandle w session handler e w1 :
  live_sessions w !! sessionRef = Some session ->
  __handler session = Some handler ->
  call_handler handler (mkEvent eventHandle {[ self_id session ]}) session w
    = (Raise e, w1) ->
  __dispatchEvent call_handler sessionRef eventHandle w =
    (Exit 1,
     set_stderr
       (stderr w1 ++ [Printed "Exception in event handler:"; Traceback e])%list
       w1) /\
  1 <> 0 /\
  (forall e' w', __dispatchEvent call_handler sessionRef eventHandle w
                 <> (Raise e', w')) /\
  (forall w', __dispatchEvent call_handler sessionRef eventHandle w
              <> (Return tt, w')).
Proof.
  intros Hlive Hhandler Hcall.
  assert (__dispatchEvent call_handler sessionRef eventHandle w =
          (Exit 1,
           set_stderr
             (stderr w1 ++ [Printed "Exception in event handler:"; Traceback e])%list
             w1)) as Heq.
  { unfold __dispatchEvent, try_except, bind, sessionRef_call.
    rewrite Hlive, Hhandler, Hcall.
    unfold print_stderr, print_exc, os_exit, set_stderr. simpl.
    by rewrite <- app_assoc. }
  repeat split; [done | done | |].
  - intros e' w'. apply __dispatchEvent_never_raises.
  - intros w'. rewrite Heq. discriminate.
Qed.

(** C9.  When the weak reference no longer reaches a session, the dispatcher
    returns without calling the handler and without raising: the world,
    stderr included, is as before, whatever the handlers would do. *)
Theorem dead_session_delivery_dropped call_handler sessionRef eventHandle w :
  live_sessions w !! sessionRef = None ->
  __dispatchEvent call_handler sessionRef eventHandle w = (Return tt, w).
Proof.
  intros Hdead.
  unfold __dispatchEvent, try_except, bind, sessionRef_call.
  by rewrite Hdead.
Qed.

End SessionFacts.

(** C1, the claim as stated fails: the subscription list has no invalid
    entry (the helper reports none), the helper returns code 1, and
    [subscribe] in mode [RETURN_INDIVIDUAL_ERRORS] raises instead of
    returning a list. *)
Lemma subscribe_individual_errors_raises :
  @subscribe (scripted 1 []) (mkSession 0 5 None None)
    (PyInstance ClsSubscriptionList 1) PyNone "label"
    (PyMode RETURN_INDIVIDUAL_ERRORS) (empty_world 1 []) =
  (Raise (UnknownErrorException "" 1),
   set_ext (["subscribeEx"] : @ExtState (scripted 1 [])) (empty_world 1 [])).
Proof. reflexivity. Qed.

(** C1, a run of the amended statement: three entries, the second invalid. *)
Lemma subscribe_resubscribe_by_mode_witness :
  let check (e : SubscriptionEntry) :=
    if String.eqb (entry_subscriptionString e) "bad"
    then Some (1, "invalid subscription string") else None in
  let entries :=
    [mkSubscriptionEntry (PyCorrelationId 1) "IBM US Equity";
     mkSubscriptionEntry (PyCorrelationId 2) "bad";
     mkSubscriptionEntry (PyCorrelationId 3) "MSFT US Equity"] in
  let errorList :=
    [SubscriptionPreprocessError.mk (PyCorrelationId 2) "bad"
       SubscriptionPreprocessError.SUBSCRIPTIONPREPROCESS_INVALID_SUBSCRIPTION_STRING
       "invalid subscription string"] in
  Forall2 (@reports_entry (scripted 0 (preprocess_calls check entries)) check)
    (invalid_entries check entries) errorList.
Proof.
  intros check entries errorList.
  apply (proj2 (proj2 (proj2 (proj2
    (@subscribe_resubscribe_by_mode (scripted 0 (preprocess_calls check entries))
       (mkSession 0 5 None None) (PyInstance ClsSubscriptionList 1) PyNone
       "label" None (empty_world 0 (preprocess_calls check entries)))))))
    with (rc := 0).
  split; reflexivity.
Defined.

(** C4, a run: mode 3 in [subscribe] and in [resubscribe]. *)
Lemma unsupported_mode_raises_ValueError_witness :
  @subscribe (scripted 0 []) (mkSession 0 5 None None)
    (PyInstance ClsSubscriptionList 1) PyNone "label" (PyInt 3)
    (empty_world 0 []) =
  (Raise (ValueError (PyInt 3)), empty_world 0 []) /\
  @resubscribe (scripted 0 []) (mkSession 0 5 None None)
    (PyInstance ClsSubscriptionList 1) "label" None (PyInt 3)
    (empty_world 0 []) =
  (Raise (ValueError (PyInt 3)), empty_world 0 []).
Proof.
  destruct (@unsupported_mode_raises_ValueError (scripted 0 [])
              (mkSession 0 5 None None) (PyInstance ClsSubscriptionList 1)
              PyNone "label" None (PyInt 3) (empty_world 0 []) eq_refl)
    as (Hsubscribe & Hresubscribe & _).
  split; [exact Hsubscribe | exact Hresubscribe].
Defined.



(** C8, a run: the session is registered by its construction; [stop]
    empties the registry and makes the underlying call. *)
Lemma stop_unregisters_exit_hook_witness :
  In handler_session (atexit_callbacks (handler_session_world 0 [])) /\
  stop handler_session (handler_session_world 0 []) =
    (Return true,
     set_ext
       ((ext (handler_session_world 0 []) ++ ["stop"])%list
          : @ExtState (scripted 0 []))
       (set_atexit_callbacks [] (handler_session_world 0 []))).
Proof.
  destruct (@stop_unregisters_exit_hook (scripted 0 []) PyNone (Some 7%nat)
              PyNone (empty_world 0 []) handler_session
              (handler_session_world 0 []) eq_refl)
    as (Hreg & _ & _ & _ & Hstop).
  split; [exact Hreg|].
  exact (proj1 (proj2 (Hstop (handler_session_world 0 [])))).
Defined.

(** C5, a run: the caller's correlation id 5 comes back and no other is
    made. *)
Lemma sendRequest_returns_token_witness :
  let w := handler_session_world 0 [] in
  let run :=
    @sendRequest (scripted 0 []) handler_session (PyInstance ClsRequest 1)
      PyNone (PyCorrelationId 5) PyNone "label" w in
  run = (Return (PyCorrelationId 5), snd run) /\
  correlation_ids (snd run) = correlation_ids w.
Proof.
  intros w run. split; [reflexivity|].
  exact (proj2 (proj2 (proj1
    (@sendRequest_returns_token (scripted 0 []) handler_session
       (PyInstance ClsRequest 1) PyNone (PyCorrelationId 5) PyNone "label"
       PyNone w)
    (PyCorrelationId 5) (snd run) eq_refl))).
Defined.

(** C10, a run: the submission answers code 1, [sendRequest] raises and the
    event queue 4 is as before. *)
Lemma sendRequest_registers_after_success_witness :
  let w :=
    set_event_queues (<[4%nat := ([] : list nat)]> ∅)
      (handler_session_world 1 []) in
  exists w',
    @sendRequest (scripted 1 []) handler_session (PyInstance ClsRequest 1)
      PyNone (PyCorrelationId 5) (PyInstance ClsEventQueue 4) "label" w =
      (Raise (UnknownErrorException "" 1), w') /\
    event_queues w' = event_queues w.
Proof.
  intros w.
  destruct (proj1
    (@sendRequest_registers_after_success (scripted 1 []) handler_session
       (PyInstance ClsRequest 1) PyNone (PyCorrelationId 5)
       (PyInstance ClsEventQueue 4) "label" w) ltac:(discriminate))
    as (w' & Hrun & Hqueues & _).
  exists w'. split; [exact Hrun | exact Hqueues].
Defined.

(** C6, a run: the handler of the live session 0 raises. *)
Lemma handler_exception_terminates_process_witness :
  @__dispatchEvent (scripted 0 []) failing_handler 0 42
    (handler_session_world 0 []) =
  (Exit 1,
   set_stderr
     (stderr (handler_session_world 0 []) ++
      [Printed "Exception in event handler:";
       Traceback (OtherException "handler failed")])%list
     (handler_session_world 0 [])).
Proof.
  exact (proj1
    (@handler_exception_terminates_process (scripted 0 []) failing_handler
       0%nat 42 (handler_session_world 0 []) handler_session 7%nat
       (OtherException "handler failed") (handler_session_world 0 [])
       eq_refl eq_refl eq_refl)).
Defined.

(** C9, a run: no session 3 is alive; the failing handler is not reached. *)
Lemma dead_session_delivery_dropped_witness :
  @__dispatchEvent (scripted 0 []) failing_handler 3 42
    (handler_session_world 0 []) =
  (Return tt, handler_session_world 0 []).
Proof.
  exact (@dead_session_delivery_dropped (scripted 0 []) failing_handler
           3%nat 42 (handler_session_world 0 []) eq_refl).
Defined.

(** * Further properties of the session *)

Section SessionFactsRest.
Context `{ExternalRest}.

(** ** Modes and error codes by value *)

(** X1.  A mode may be given by its value: [SubscriptionPreprocessMode(v)]
    of a member's value is the member, and [subscribe] and [resubscribe]
    called with the value of a mode do what they do with the mode itself. *)
Theorem mode_accepted_by_value self subscriptionList identity requestLabel
    resubscriptionId m w :
  SubscriptionPreprocessMode_call (PyInt (SubscriptionPreprocessMode_value m))
    = Return m /\
  subscribe self subscriptionList identity requestLabel
      (PyInt (SubscriptionPreprocessMode_value m)) w =
    subscribe self subscriptionList identity requestLabel (PyMode m) w /\
  resubscribe self subscriptionList requestLabel resubscriptionId
      (PyInt (SubscriptionPreprocessMode_value m)) w =
    resubscribe self subscriptionList requestLabel resubscriptionId
      (PyMode m) w.
Proof. repeat split; by destruct m. Qed.

(** X2.  An invocation of the error callback that returns has appended one
    error to the list, and that error carries the correlation id, the
    subscription string and the description of the invocation, and the member
    of [ErrorCode] whose value is the integer of the invocation.  An integer
    that is no member's value makes the callback raise [ValueError]; when the
    two values differ, the value of a member makes it append the error with
    that member. *)
Theorem error_carries_reported_fields errorList call :
  (forall errorList',
     errorAppender errorList call = Return errorList' ->
     exists err,
       errorList' = (errorList ++ [err])%list /\
       SubscriptionPreprocessError.correlationId err =
         call_correlationId call /\
       SubscriptionPreprocessError.subscriptionString err =
         call_subscriptionString call /\
       SubscriptionPreprocessError.description err = call_description call /\
       ErrorCode_value (SubscriptionPreprocessError.errorCode err) =
         call_errorCode call) /\
  ((forall e, ErrorCode_value e <> call_errorCode call) ->
   errorAppender errorList call =
     Raise (ValueError (PyInt (call_errorCode call)))) /\
  (internals_SUBSCRIPTIONPREPROCESS_INVALID_SUBSCRIPTION_STRING <>
     internals_SUBSCRIPTIONPREPROCESS_CORRELATIONID_ERROR ->
   forall e,
     call_errorCode call = ErrorCode_value e ->
     errorAppender errorList call =
       Return (errorList ++
               [SubscriptionPreprocessError.mk (call_correlationId call)
                  (call_subscriptionString call) e (call_description call)])%list).
Proof.
  unfold errorAppender, ErrorCode_call.
  split; [|split].
  - intros errorList'.
    destruct (Z.eqb_spec (call_errorCode call)
                internals_SUBSCRIPTIONPREPROCESS_INVALID_SUBSCRIPTION_STRING)
      as [Hc|_]; [intros [= <-]; eexists; by repeat split|].
    destruct (Z.eqb_spec (call_errorCode call)
                internals_SUBSCRIPTIONPREPROCESS_CORRELATIONID_ERROR)
      as [Hc|_]; [intros [= <-]; eexists; by repeat split | discriminate].
  - intros Hno.
    destruct (Z.eqb_spec (call_errorCode call)
                internals_SUBSCRIPTIONPREPROCESS_INVALID_SUBSCRIPTION_STRING)
      as [Hc|_].
    { by destruct (Hno SubscriptionPreprocessError.SUBSCRIPTIONPREPROCESS_INVALID_SUBSCRIPTION_STRING). }
    destruct (Z.eqb_spec (call_errorCode call)
                internals_SUBSCRIPTIONPREPROCESS_CORRELATIONID_ERROR)
      as [Hc|_]; [|done].
    by destruct (Hno SubscriptionPreprocessError.SUBSCRIPTIONPREPROCESS_CORRELATIONID_ERROR).
  - intros Hne e ->. destruct e; simpl; rewrite ?Z.eqb_refl; [done|].
    destruct (Z.eqb_spec internals_SUBSCRIPTIONPREPROCESS_CORRELATIONID_ERROR
                internals_SUBSCRIPTIONPREPROCESS_INVALID_SUBSCRIPTION_STRING);
      [congruence | done].
Qed.

(** ** The error list *)

(** X3.  The error callback only appends: running it on one batch of
    invocations and then on another is running it on the two in a row, and a
    run that ends well leaves the errors that were in the list in front,
    followed by as many new errors as there were invocations. *)
Theorem errorAppender_appends_in_order calls1 calls2 errorList :
  run_appender (calls1 ++ calls2) errorList =
    match run_appender calls1 errorList with
    | Return errorList1 => run_appender calls2 errorList1
    | r => r
    end /\
  (forall errorList',
     run_appender calls1 errorList = Return errorList' ->
     exists new,
       errorList' = (errorList ++ new)%list /\ length new = length calls1).
Proof.
  split.
  - revert errorList. induction calls1 as [|c rest IH]; intros errorList;
      simpl; [done|].
    destruct (errorAppender errorList c); [apply IH | done | done].
  - intros errorList' Hrun.
    apply run_appender_Return in Hrun as (es & Hes & ->).
    exists es. split; [done|]. by apply length_mapM in Hes.
Qed.

(** ** stop and the registry of exit hooks *)

Lemma filter_commute {A} (f g : A -> bool) l :
  List.filter f (List.filter g l) = List.filter g (List.filter f l).
Proof.
  induction l as [|a l IH]; simpl; [done|].
  destruct (f a) eqn:Hf, (g a) eqn:Hg; simpl; rewrite ?Hf, ?Hg, ?IH; done.
Qed.

Lemma filter_idempotent {A} (f : A -> bool) l :
  List.filter f (List.filter f l) = List.filter f l.
Proof.
  induction l as [|a l IH]; simpl; [done|].
  destruct (f a) eqn:Hf; simpl; rewrite ?Hf, ?IH; done.
Qed.

(** X5.  [stop] takes out of the registry the hooks of its own session, all
    of them and only them: what stays are the hooks of the other sessions, in
    their order.  On the registry a second [stop] changes nothing, and the
    [stop]s of two sessions may come in either order.  The state of the
    outside after [stop] is what [blpapi_Session_stop] on the handle of the
    session leaves, and [stop] returns whether its code is zero. *)
Theorem stop_registry_effects self other w :
  atexit_callbacks (snd (stop self w)) =
    other_callbacks self (atexit_callbacks w) /\
  (forall c, In c (atexit_callbacks (snd (stop self w))) ->
     self_id c <> self_id self) /\
  (forall c, self_id c <> self_id self ->
     In c (atexit_callbacks (snd (stop self w))) <->
     In c (atexit_callbacks w)) /\
  atexit_callbacks (snd (stop self (snd (stop self w)))) =
    atexit_callbacks (snd (stop self w)) /\
  atexit_callbacks (snd (stop self (snd (stop other w)))) =
    atexit_callbacks (snd (stop other (snd (stop self w)))) /\
  ext (snd (stop self w)) =
    snd (blpapi_Session_stop (__handle self) (ext w)) /\
  fst (stop self w) =
    Return (fst (blpapi_Session_stop (__handle self) (ext w)) =? 0).
Proof.
  pose proof (stop_result self w) as Hstop.
  split; [|split; [|split; [|split; [|split]]]].
  - apply stop_atexit_callbacks.
  - intros c. apply stop_unregisters.
  - intros c Hne. rewrite stop_atexit_callbacks, filter_In.
    unfold bound_stop_eqb. split; [tauto|]. intros Hin. split; [done|].
    by apply negb_true_iff, Nat.eqb_neq.
  - rewrite !stop_atexit_callbacks. apply filter_idempotent.
  - rewrite !stop_atexit_callbacks. apply filter_commute.
  - destruct (blpapi_Session_stop _ _) as [rc x]. by rewrite Hstop.
Qed.

(** ** The run of the exit hooks *)

Lemma bound_stop_eqb_refl c : bound_stop_eqb c c = true.
Proof. apply Nat.eqb_refl. Qed.

Lemma existsb_bound_stop c l :
  existsb (bound_stop_eqb c) l = true <->
  exists x, In x l /\ self_id x = self_id c.
Proof.
  rewrite existsb_exists. unfold bound_stop_eqb.
  split; intros (x & Hx & Heq); exists x; split; try done.
  - by apply Nat.eqb_eq in Heq.
  - by apply Nat.eqb_eq.
Qed.

Lemma filter_filter_andb {A} (f g : A -> bool) l :
  List.filter f (List.filter g l) = List.filter (fun x => g x && f x) l.
Proof.
  induction l as [|a l IH]; simpl; [done|].
  destruct (g a) eqn:Hg; simpl; [|done].
  destruct (f a); by rewrite IH.
Qed.

(** After the run the registry holds what no pending hook stands for. *)
Lemma run_exitfuncs_registry pending w :
  atexit_callbacks (snd (run_exitfuncs pending w)) =
  List.filter (fun c => negb (existsb (bound_stop_eqb c) pending))
    (atexit_callbacks w).
Proof.
  revert w. induction pending as [|s rest IH]; intros w; simpl.
  - induction (atexit_callbacks w) as [|a l IHl]; simpl; congruence.
  - destruct (existsb (bound_stop_eqb s) (atexit_callbacks w)) eqn:Hreg.
    + destruct (stop s w) as [r w1] eqn:Hstop.
      specialize (IH w1).
      destruct (run_exitfuncs rest w1) as [called w2]. simpl in *.
      rewrite IH. replace w1 with (snd (stop s w)) by (by rewrite Hstop).
      rewrite stop_atexit_callbacks, filter_filter_andb.
      apply filter_ext. intros a. by rewrite negb_orb.
    + rewrite IH. apply filter_ext_in. intros a Ha.
      destruct (bound_stop_eqb a s) eqn:Has; [|done].
      exfalso. apply not_true_iff_false in Hreg. apply Hreg.
      apply existsb_bound_stop. exists a. split; [done|].
      unfold bound_stop_eqb in Has. by apply Nat.eqb_eq in Has.
Qed.

Lemma run_exitfuncs_called_pending pending w c :
  In c (fst (run_exitfuncs pending w)) -> In c pending.
Proof.
  revert w. induction pending as [|s rest IH]; intros w; simpl; [done|].
  destruct (existsb (bound_stop_eqb s) (atexit_callbacks w)).
  - destruct (stop s w) as [r w1].
    specialize (IH w1). destruct (run_exitfuncs rest w1) as [called w2].
    simpl in *. intros [<- | Hin]; [by left | right; by apply IH].
  - intros Hin. right. by eapply IH.
Qed.

Lemma run_exitfuncs_called_once pending w :
  NoDup (map self_id (fst (run_exitfuncs pending w))).
Proof.
  revert w. induction pending as [|s rest IH]; intros w; simpl;
    [constructor|].
  destruct (existsb (bound_stop_eqb s) (atexit_callbacks w)); [|apply IH].
  destruct (stop s w) as [r w1] eqn:Hstop.
  pose proof (run_exitfuncs_called_registered rest w1) as Hreg.
  specialize (IH w1). destruct (run_exitfuncs rest w1) as [called w2].
  simpl in *. constructor; [|done].
  intros (c & Hid & Hc)%list_elem_of_In%in_map_iff.
  apply Hreg, existsb_bound_stop in Hc as (x & Hx & Hxc).
  assert (w1 = snd (stop s w)) as -> by (by rewrite Hstop).
  apply stop_unregisters in Hx. congruence.
Qed.

(** A hook that is pending and registered is called, or one of the same
    session is. *)
Lemma run_exitfuncs_calls_registered pending w c :
  existsb (bound_stop_eqb c) pending = true ->
  existsb (bound_stop_eqb c) (atexit_callbacks w) = true ->
  exists c', In c' (fst (run_exitfuncs pending w)) /\ self_id c' = self_id c.
Proof.
  revert w. induction pending as [|s rest IH]; intros w; simpl;
    [discriminate|].
  intros Hpending Hreg.
  destruct (Nat.eqb_spec (self_id c) (self_id s)) as [Hcs|Hcs].
  - assert (existsb (bound_stop_eqb s) (atexit_callbacks w) = true) as ->.
    { apply existsb_bound_stop.
      apply existsb_bound_stop in Hreg as (x & Hx & Hxc).
      exists x. split; [done | congruence]. }
    destruct (stop s w) as [r w1]. destruct (run_exitfuncs rest w1).
    exists s. split; [by left | done].
  - unfold bound_stop_eqb at 1 in Hpending.
    apply Nat.eqb_neq in Hcs as Hcs'. rewrite Hcs' in Hpending.
    simpl in Hpending.
    destruct (existsb (bound_stop_eqb s) (atexit_callbacks w)).
    + destruct (stop s w) as [r w1] eqn:Hstop.
      specialize (IH w1 Hpending).
      destruct (run_exitfuncs rest w1) as [called w2]. simpl in *.
      destruct IH as (c' & Hc' & Hid); [|by eauto].
      assert (w1 = snd (stop s w)) as -> by (by rewrite Hstop).
      apply existsb_bound_stop.
      apply existsb_bound_stop in Hreg as (x & Hx & Hxc).
      exists x. split; [|done].
      rewrite stop_atexit_callbacks. apply filter_In. split; [done|].
      unfold bound_stop_eqb. apply negb_true_iff, Nat.eqb_neq. congruence.
    + by apply IH.
Qed.

Lemma filter_none {A} (f : A -> bool) l :
  (forall x, In x l -> f x = false) -> List.filter f l = [].
Proof.
  induction l as [|a l IH]; simpl; [done|]. intros Hall.
  rewrite (Hall a) by (by left). apply IH. intros x Hx. apply Hall. by right.
Qed.

Lemma exit_registered_called w c :
  In c (atexit_callbacks w) ->
  exists c', In c' (fst (atexit_run_exitfuncs w)) /\ self_id c' = self_id c.
Proof.
  intros Hc. unfold atexit_run_exitfuncs.
  apply run_exitfuncs_calls_registered; apply existsb_bound_stop; exists c;
    (split; [|done]); [by apply -> in_rev | done].
Qed.

(** X6.  At exit every session whose [stop] is registered is stopped: the
    sessions stopped are registered ones, none is stopped twice, each
    registered session is among them, the registry is empty afterwards, and
    the state of the outside is what the calls of [blpapi_Session_stop] on
    the handles of the sessions stopped, in the order they were stopped, make
    of it. *)
Theorem exit_stops_every_registered_session w :
  let '(called, w') := atexit_run_exitfuncs w in
  atexit_callbacks w' = [] /\
  NoDup (map self_id called) /\
  (forall c, In c called -> In c (atexit_callbacks w)) /\
  (forall c, In c (atexit_callbacks w) ->
     exists c', In c' called /\ self_id c' = self_id c) /\
  ext w' =
    fold_left (fun x c => snd (blpapi_Session_stop (__handle c) x))
      called (ext w).
Proof.
  unfold atexit_run_exitfuncs.
  pose proof (run_exitfuncs_registry (rev (atexit_callbacks w)) w) as Hreg.
  pose proof (run_exitfuncs_called_once (rev (atexit_callbacks w)) w) as Hnd.
  pose proof (run_exitfuncs_called_pending (rev (atexit_callbacks w)) w)
    as Hpend.
  pose proof (exit_registered_called w) as Hcalls.
  pose proof (run_exitfuncs_ext (rev (atexit_callbacks w)) w) as Hext.
  unfold atexit_run_exitfuncs in Hcalls.
  destruct (run_exitfuncs (rev (atexit_callbacks w)) w) as [called w'].
  simpl in *. split; [|split; [|split; [|split]]].
  - rewrite Hreg. apply filter_none. intros x Hx.
    apply negb_false_iff, existsb_bound_stop. exists x.
    by rewrite <- in_rev.
  - done.
  - intros c Hc. apply in_rev. by apply Hpend.
  - done.
  - done.
Qed.

(** X7.  [stopAsync] does not touch the registry of exit hooks: a session
    registered before it is still registered after it, and is stopped at
    exit. *)
Theorem stopAsync_keeps_exit_hook self w :
  atexit_callbacks (snd (stopAsync self w)) = atexit_callbacks w /\
  (exists ok, fst (stopAsync self w) = Return ok) /\
  (forall c, In c (atexit_callbacks w) ->
     exists c', In c' (fst (atexit_run_exitfuncs (snd (stopAsync self w)))) /\
                self_id c' = self_id c).
Proof.
  assert (atexit_callbacks (snd (stopAsync self w)) = atexit_callbacks w)
    as Hkept.
  { unfold stopAsync, bind, ext_call, ret.
    by destruct (blpapi_Session_stopAsync _ _). }
  repeat split; [done | |].
  - unfold stopAsync, bind, ext_call, ret.
    destruct (blpapi_Session_stopAsync _ _). simpl. eauto.
  - intros c Hc.
    pose proof (exit_registered_called (snd (stopAsync self w)) c) as Hexit.
    apply Hexit. by rewrite Hkept.
Qed.

(** ** Construction *)

Lemma Session_init_effects self options eventHandler eventDispatcher w
    session w1 :
  Session_init self options eventHandler eventDispatcher w =
    (Return session, w1) ->
  __handlerProxy session =
    match eventHandler with Some _ => Some self | None => None end /\
  live_sessions w1 = live_sessions w /\
  correlation_ids w1 = correlation_ids w /\
  event_queues w1 = event_queues w /\
  stderr w1 = stderr w /\
  (let '(o, x0) :=
     if is_None options then SessionOptions_new (ext w) else (options, ext w)
   in
   __handle session =
     fst (Session_createHelper (get_handle o)
            match eventHandler with Some _ => Some self | None => None end
            (get_handle eventDispatcher) x0)).
Proof.
  unfold Session_init.
  destruct (bool_decide (eventHandler = None) && negb (is_None eventDispatcher));
    [discriminate|].
  unfold bind, ext_call, ret, atexit_register.
  destruct (is_None options); simpl.
  - destruct (SessionOptions_new (ext w)) as [o x]; simpl.
    destruct (Session_createHelper _ _ _ _) as [handle x']; simpl.
    by intros [= <- <-].
  - destruct (Session_createHelper _ _ _ _) as [handle x']; simpl.
    by intros [= <- <-].
Qed.

(** X8.  A constructed session is a new object: its identity was not in
    use, it is added to the live sessions and the others stay.  It keeps the
    handler it was given; it has a dispatcher proxy, bound to itself, exactly
    when a handler was given, and its handle is the one [Session_createHelper]
    made from the options (default options when none were given), that proxy
    and the dispatcher.  Its [stop] is registered last; correlation ids, event
    queues and stderr are untouched. *)
Theorem Session_new_effects options eventHandler eventDispatcher w session w1 :
  Session_new options eventHandler eventDispatcher w = (Return session, w1) ->
  (self_id session ∉ dom (live_sessions w)) /\
  live_sessions w1 = <[self_id session := session]> (live_sessions w) /\
  __handler session = eventHandler /\
  __handlerProxy session =
    match eventHandler with
    | Some _ => Some (self_id session)
    | None => None
    end /\
  atexit_callbacks w1 = (atexit_callbacks w ++ [session])%list /\
  correlation_ids w1 = correlation_ids w /\
  event_queues w1 = event_queues w /\
  stderr w1 = stderr w /\
  (let '(o, x0) :=
     if is_None options then SessionOptions_new (ext w) else (options, ext w)
   in
   __handle session =
     fst (Session_createHelper (get_handle o) (__handlerProxy session)
            (get_handle eventDispatcher) x0)).
Proof.
  unfold Session_new.
  destruct (Session_init _ _ _ _ _) as [[s| |] w0] eqn:Hinit; try discriminate.
  intros [= <- <-].
  pose proof (Session_init_Return _ _ _ _ _ _ _ Hinit) as (Hid & Hh & Hreg).
  pose proof (Session_init_effects _ _ _ _ _ _ _ Hinit)
    as (Hproxy & Hlive & Hcids & Hqueues & Herr & Hhandle).
  rewrite Hid. simpl. rewrite Hlive, Hproxy.
  repeat split; try done. apply is_fresh.
Qed.

(** X9.  Events dispatched through the proxy of a session constructed with
    a handler reach that handler, with an event of that session and the
    session itself, as long as the session is alive (as it is right after its
    construction).  When the handler returns the dispatcher returns and has
    written nothing; when the handler ends the process so does the
    dispatcher; when it raises, the traceback is written and the process ends
    with status 1. *)
Theorem constructed_session_proxy_reaches_handler
    (call_handler : nat -> Event -> Session -> M unit)
    options handler eventDispatcher w session w1 :
  Session_new options (Some handler) eventDispatcher w
    = (Return session, w1) ->
  __handlerProxy session = Some (self_id session) /\
  live_sessions w1 !! self_id session = Some session /\
  forall eventHandle w2,
    live_sessions w2 !! self_id session = Some session ->
    __dispatchEvent call_handler (self_id session) eventHandle w2 =
      dispatch_outcome
        (call_handler handler
           (mkEvent eventHandle {[ self_id session ]}) session w2).
Proof.
  intros Hnew.
  pose proof (Session_new_effects _ _ _ _ _ _ Hnew)
    as (_ & Hlive & Hh & Hproxy & _).
  repeat split; [done | rewrite Hlive; apply lookup_insert_eq |].
  intros eventHandle w2 Hlive2.
  unfold __dispatchEvent, try_except, bind, sessionRef_call.
  rewrite Hlive2, Hh.
  destruct (call_handler _ _ _ _) as [[[]|e|n] w3]; simpl; try done.
  unfold print_stderr, print_exc, os_exit, set_stderr. simpl.
  by rewrite <- app_assoc.
Qed.

(** ** Requests and the rest of the world *)

(** X11.  However it ends, [sendRequest] leaves the live sessions, the exit
    hooks and stderr alone, removes no correlation id, and changes no event
    queue other than the one it was given; [sendRequestTemplate] changes no
    event queue at all. *)
Theorem sendRequest_effects self request identity correlationId eventQueue
    requestLabel requestTemplate w :
  (let w' :=
     snd (sendRequest self request identity correlationId eventQueue
            requestLabel w) in
   live_sessions w' = live_sessions w /\
   atexit_callbacks w' = atexit_callbacks w /\
   stderr w' = stderr w /\
   correlation_ids w ⊆ correlation_ids w' /\
   (forall q, eventQueue <> PyInstance ClsEventQueue q ->
      event_queues w' !! q = event_queues w !! q)) /\
  (let w' := snd (sendRequestTemplate self requestTemplate correlationId w) in
   live_sessions w' = live_sessions w /\
   atexit_callbacks w' = atexit_callbacks w /\
   stderr w' = stderr w /\
   correlation_ids w ⊆ correlation_ids w' /\
   event_queues w' = event_queues w).
Proof.
  split.
  - unfold sendRequest, bind. rewrite correlationId_chosen.
    unfold ext_call, raiseOnError, ret, raise, call_registerSession.
    destruct (is_None correlationId); simpl;
      destruct (blpapi_Session_sendRequest _ _ _ _ _ _ _) as [res x]; simpl;
      destruct (res =? 0); simpl;
      destruct eventQueue as [| | | | | |[] q0]; simpl;
      repeat split; try done; try apply union_subseteq_r;
      intros q Hq; apply lookup_alter_ne; congruence.
  - unfold sendRequestTemplate, bind. rewrite correlationId_chosen.
    unfold ext_call, raiseOnError, ret, raise.
    destruct (is_None correlationId); simpl;
      destruct (blpapi_Session_sendRequestTemplate _ _ _ _) as [res x]; simpl;
      destruct (res =? 0); simpl;
      repeat split; try done; apply union_subseteq_r.
Qed.

End SessionFactsRest.

(** X8, a run: the session constructed with handler 7 in the empty world. *)
Lemma Session_new_effects_witness :
  live_sessions (handler_session_world 0 []) =
    <[self_id handler_session := handler_session]>
      (live_sessions (empty_world 0 [])) /\
  __handlerProxy handler_session = Some (self_id handler_session) /\
  atexit_callbacks (handler_session_world 0 []) = [handler_session].
Proof.
  destruct (@Session_new_effects (scripted 0 []) PyNone (Some 7%nat) PyNone
              (empty_world 0 []) handler_session (handler_session_world 0 [])
              eq_refl)
    as (_ & Hlive & _ & Hproxy & Hreg & _).
  split; [exact Hlive | split; [exact Hproxy | exact Hreg]].
Defined.

(** X9, a run: the proxy of that session, with a handler that raises. *)
Lemma constructed_session_proxy_reaches_handler_witness :
  @__dispatchEvent (scripted 0 []) failing_handler
    (self_id handler_session) 42 (handler_session_world 0 []) =
  dispatch_outcome
    (failing_handler 7%nat (mkEvent 42 {[ self_id handler_session ]})
       handler_session (handler_session_world 0 [])).
Proof.
  destruct (@constructed_session_proxy_reaches_handler (scripted 0 [])
              failing_handler PyNone 7%nat PyNone (empty_world 0 [])
              handler_session (handler_session_world 0 []) eq_refl)
    as (_ & Hlive & Hdispatch).
  exact (Hdispatch 42 (handler_session_world 0 []) Hlive).
Defined.

(** X2, a run: the two codes are 1 and 2; an invocation with code 2
    appends the error of the second member. *)
Lemma error_carries_reported_fields_witness :
  @errorAppender (scripted 0 []) []
    (mkAppenderCall (PyCorrelationId 2) "bad" 2 "duplicate") =
  Return
    [SubscriptionPreprocessError.mk (PyCorrelationId 2) "bad"
       SubscriptionPreprocessError.SUBSCRIPTIONPREPROCESS_CORRELATIONID_ERROR
       "duplicate"].
Proof.
  exact (proj2 (proj2 (@error_carries_reported_fields (scripted 0 []) []
                         (mkAppenderCall (PyCorrelationId 2) "bad" 2
                            "duplicate")))
           ltac:(discriminate)
           SubscriptionPreprocessError.SUBSCRIPTIONPREPROCESS_CORRELATIONID_ERROR
           eq_refl).
Defined.
